(** * BountiesAPI: the event handlers of [std_bounties/master_client.py]
    and the pricing helpers exercised by [std_bounties/tests.py].

    The handlers are embedded as computations in a small state-and-exception
    monad over the [Bounty] table and a log of collaborator calls.  The three
    module-level singletons ([bounty_client], [notification_client],
    [slack_client]) live outside the two source files; they are taken as
    parameters and every statement about the handlers holds for all of them. *)

From Stdlib Require Import ZArith QArith Qpower Qround Qfield List String Ascii Lia.
From stdpp Require Import base option gmap strings list.

Local Open Scope string_scope.
Local Open Scope list_scope.
Local Open Scope Z_scope.

(** ** Decimal numbers

    Python's [decimal.Decimal]: an integer coefficient and a base-10 exponent,
    denoting [coefficient * 10 ^ exponent]. *)

Record Decimal := mkDecimal { coefficient : Z; exponent : Z }.

(** ** Python values carried by an event *)

Inductive PyVal :=
| PyNone
| PyBool (b : bool)
| PyInt (z : Z)
| PyStr (s : string).

(** Python truth value testing. *)
Definition truthy (v : PyVal) : bool :=
  match v with
  | PyNone => false
  | PyBool b => b
  | PyInt z => negb (z =? 0)
  | PyStr s => negb (String.eqb s "")
  end.

(** [d.get(key, dflt)] *)
Definition dict_get (d : gmap string PyVal) (key : string) (dflt : PyVal) : PyVal :=
  default dflt (d !! key).

(** The keyword arguments of a handler.  The handlers read [inputs] (the
    decoded arguments of the contract call, a dict when supplied) and
    [fulfillment_id]; everything else is handed on to the collaborators. *)
Module Kwargs.
Record t := mk {
  inputs : option (gmap string PyVal);
  fulfillment_id : option Z;
  others : gmap string PyVal
}.

(** [kwargs.get('inputs', {})] *)
Definition get_inputs (kwargs : t) : gmap string PyVal :=
  default ∅ (inputs kwargs).

(** [kwargs.get('fulfillment_id')] *)
Definition get_fulfillment_id (kwargs : t) : option Z :=
  fulfillment_id kwargs.
End Kwargs.

(** ** The models used by the handlers and the tests *)

(** The stage constants of [std_bounties.constants]: the tests import three
    of them, the data model of the spec lists all five. *)
Inductive Stage := DRAFT_STAGE | ACTIVE_STAGE | DEAD_STAGE | COMPLETED_STAGE | EXPIRED_STAGE.

Module Bounty.
(** The columns set by [TestBountyClient.setUpClass]. *)
Record t := mk {
  id : Z;
  bounty_id : Z;
  fulfillmentAmount : Z;
  usd_price : Decimal;
  deadline : Z;
  paysTokens : bool;
  bountyStage : Stage
}.
End Bounty.

Module Token.
(** The columns set by [TestCalculationHelpers.setUpClass]. *)
Record t := mk {
  normalized_name : string;
  name : string;
  symbol : string;
  price_usd : Decimal
}.
End Token.

(** ** Exceptions, outcomes and the handler monad *)

Inductive Exn :=
| DoesNotExist
| MultipleObjectsReturned
| CollaboratorError (msg : string).

Inductive Outcome (A : Type) :=
| Returned (a : A)
| Raised (e : Exn).
Arguments Returned {A} a.
Arguments Raised {A} e.

Definition raised_by {A} (r : Outcome A) : option Exn :=
  match r with
  | Returned _ => None
  | Raised e => Some e
  end.

(** The calls a handler makes on its collaborators; the constructor is the
    method, its arguments are the call's arguments. *)
Module BountyClient.
Inductive op :=
| issue_bounty (bounty_id : Z) (kwargs : Kwargs.t)
| activate_bounty (bounty : Bounty.t) (kwargs : Kwargs.t)
| fulfill_bounty (bounty : Bounty.t) (kwargs : Kwargs.t)
| update_fulfillment (bounty : Bounty.t) (kwargs : Kwargs.t)
| accept_fulfillment (bounty : Bounty.t) (kwargs : Kwargs.t)
| kill_bounty (bounty : Bounty.t) (kwargs : Kwargs.t)
| add_contribution (bounty : Bounty.t) (kwargs : Kwargs.t)
| extend_deadline (bounty : Bounty.t) (kwargs : Kwargs.t)
| change_bounty (bounty : Bounty.t) (kwargs : Kwargs.t)
| transfer_issuer (bounty : Bounty.t) (kwargs : Kwargs.t)
| increase_payout (bounty : Bounty.t) (kwargs : Kwargs.t).
End BountyClient.

Module NotificationClient.
Inductive call :=
| bounty_issued (bounty_id : Z)
| bounty_issued_and_activated (bounty_id : Z) (kwargs : Kwargs.t)
| bounty_activated (bounty_id : Z) (kwargs : Kwargs.t)
| bounty_fulfilled (bounty_id : Z) (kwargs : Kwargs.t)
| fulfillment_updated (bounty_id : Z) (kwargs : Kwargs.t)
| fulfillment_accepted (bounty_id : Z) (kwargs : Kwargs.t)
| bounty_killed (bounty_id : Z) (kwargs : Kwargs.t)
| contribution_added (bounty_id : Z) (kwargs : Kwargs.t)
| deadline_extended (bounty_id : Z) (kwargs : Kwargs.t)
| bounty_changed (bounty_id : Z) (kwargs : Kwargs.t)
| issuer_transferred (bounty_id : Z) (kwargs : Kwargs.t)
| payout_increased (bounty_id : Z) (kwargs : Kwargs.t).
End NotificationClient.

Module SlackMessageClient.
Inductive call :=
| bounty_issued (bounty : Bounty.t)
| bounty_issued_and_activated (bounty : Bounty.t)
| bounty_activated (bounty : Bounty.t)
| bounty_fulfilled (bounty : Bounty.t) (fulfillment_id : option Z)
| fulfillment_updated (bounty : Bounty.t) (fulfillment_id : option Z)
| fulfillment_accepted (bounty : Bounty.t) (fulfillment_id : option Z)
| bounty_killed (bounty : Bounty.t)
| contribution_added (bounty : Bounty.t)
| deadline_extended (bounty : Bounty.t)
| bounty_changed (bounty : Bounty.t)
| issuer_transferred (bounty : Bounty.t)
| payout_increased (bounty : Bounty.t).
End SlackMessageClient.

Inductive Call :=
| CBounty (o : BountyClient.op)
| CNotify (c : NotificationClient.call)
| CSlack (c : SlackMessageClient.call).

(** One entry of the effect sequence: the call made and the exception it
    raised, if any. *)
Record Effect := mkEffect { eff_call : Call; eff_raised : option Exn }.

Definition is_commit (e : Effect) : bool :=
  match eff_call e with
  | CBounty _ => true
  | _ => false
  end.

Definition is_notification (e : Effect) : bool :=
  match eff_call e with
  | CBounty _ => false
  | _ => true
  end.

(** The state a handler runs in: the rows of the [Bounty] table and the
    calls made so far, oldest first. *)
Record World := mkWorld { db : list Bounty.t; log : list Effect }.

Definition M (A : Type) : Type := World -> World * Outcome A.

#[global] Instance M_ret : MRet M := fun A a w => (w, Returned a).

#[global] Instance M_bind : MBind M := fun A B f m w =>
  match m w with
  | (w', Returned a) => f a w'
  | (w', Raised e) => (w', Raised e)
  end.

(** ** [Bounty.objects] *)

(** [Bounty.objects.filter(bounty_id=bounty_id)], evaluated. *)
Definition objects_filter (bounty_id : Z) (table : list Bounty.t) : list Bounty.t :=
  filter (fun b => Bounty.bounty_id b = bounty_id) table.

(** [queryset.exists()] *)
Definition queryset_exists (qs : list Bounty.t) : bool :=
  match qs with
  | [] => false
  | _ :: _ => true
  end.

(** [Bounty.objects.get(bounty_id=bounty_id)] on a table: exactly one row, or
    [DoesNotExist], or [MultipleObjectsReturned]. *)
Definition objects_get (bounty_id : Z) (table : list Bounty.t) : Outcome Bounty.t :=
  match objects_filter bounty_id table with
  | [] => Raised DoesNotExist
  | [b] => Returned b
  | _ :: _ :: _ => Raised MultipleObjectsReturned
  end.

Definition Bounty_objects_filter (bounty_id : Z) : M (list Bounty.t) :=
  fun w => (w, Returned (objects_filter bounty_id (db w))).

Definition Bounty_objects_get (bounty_id : Z) : M Bounty.t :=
  fun w => (w, objects_get bounty_id (db w)).

(** ** The collaborators and the handlers of [master_client.py] *)

(** [bounty_client] interprets a call on the table: the table it leaves and
    either the bounty object after the call (the created bounty for
    [issue_bounty], otherwise the object it was handed, which it may have
    updated in place) or the exception raised.  The notification and slack
    clients read the table and either return or raise. *)
Record Collaborators := mkCollaborators {
  bounty_client : BountyClient.op -> list Bounty.t -> list Bounty.t * Outcome Bounty.t;
  notification_client : NotificationClient.call -> list Bounty.t -> option Exn;
  slack_client : SlackMessageClient.call -> list Bounty.t -> option Exn
}.

Definition outcome_of_raise (r : option Exn) : Outcome unit :=
  match r with
  | None => Returned tt
  | Some e => Raised e
  end.

Section Handlers.
Variable C : Collaborators.

Definition call_bounty_client (o : BountyClient.op) : M Bounty.t :=
  fun w =>
    let '(table, r) := bounty_client C o (db w) in
    (mkWorld table (log w ++ [mkEffect (CBounty o) (raised_by r)]), r).

Definition call_notification_client (c : NotificationClient.call) : M unit :=
  fun w =>
    let r := notification_client C c (db w) in
    (mkWorld (db w) (log w ++ [mkEffect (CNotify c) r]), outcome_of_raise r).

Definition call_slack_client (c : SlackMessageClient.call) : M unit :=
  fun w =>
    let r := slack_client C c (db w) in
    (mkWorld (db w) (log w ++ [mkEffect (CSlack c) r]), outcome_of_raise r).

Definition bounty_issued (bounty_id : Z) (kwargs : Kwargs.t) : M unit :=
  bounty ← Bounty_objects_filter bounty_id;
  let inputs := Kwargs.get_inputs kwargs in
  let is_issue_and_activate := dict_get inputs "_value" PyNone in
  if queryset_exists bounty then mret tt
  else
    created_bounty ← call_bounty_client (BountyClient.issue_bounty bounty_id kwargs);
    if negb (truthy is_issue_and_activate) then
      call_notification_client (NotificationClient.bounty_issued bounty_id);;
      call_slack_client (SlackMessageClient.bounty_issued created_bounty)
    else mret tt.

Definition bounty_activated (bounty_id : Z) (kwargs : Kwargs.t) : M unit :=
  bounty ← Bounty_objects_get bounty_id;
  let inputs := Kwargs.get_inputs kwargs in
  let is_issue_and_activate := dict_get inputs "_issuer" PyNone in
  bounty ← call_bounty_client (BountyClient.activate_bounty bounty kwargs);
  if truthy is_issue_and_activate then
    call_slack_client (SlackMessageClient.bounty_issued_and_activated bounty);;
    call_notification_client (NotificationClient.bounty_issued_and_activated bounty_id kwargs)
  else
    call_notification_client (NotificationClient.bounty_activated bounty_id kwargs);;
    call_slack_client (SlackMessageClient.bounty_activated bounty).

Definition bounty_fulfilled (bounty_id : Z) (kwargs : Kwargs.t) : M unit :=
  let fulfillment_id := Kwargs.get_fulfillment_id kwargs in
  bounty ← Bounty_objects_get bounty_id;
  bounty ← call_bounty_client (BountyClient.fulfill_bounty bounty kwargs);
  call_notification_client (NotificationClient.bounty_fulfilled bounty_id kwargs);;
  call_slack_client (SlackMessageClient.bounty_fulfilled bounty fulfillment_id).

Definition fullfillment_updated (bounty_id : Z) (kwargs : Kwargs.t) : M unit :=
  let fulfillment_id := Kwargs.get_fulfillment_id kwargs in
  bounty ← Bounty_objects_get bounty_id;
  bounty ← call_bounty_client (BountyClient.update_fulfillment bounty kwargs);
  call_notification_client (NotificationClient.fulfillment_updated bounty_id kwargs);;
  call_slack_client (SlackMessageClient.fulfillment_updated bounty fulfillment_id).

Definition fulfillment_accepted (bounty_id : Z) (kwargs : Kwargs.t) : M unit :=
  let fulfillment_id := Kwargs.get_fulfillment_id kwargs in
  bounty ← Bounty_objects_get bounty_id;
  bounty ← call_bounty_client (BountyClient.accept_fulfillment bounty kwargs);
  call_notification_client (NotificationClient.fulfillment_accepted bounty_id kwargs);;
  call_slack_client (SlackMessageClient.fulfillment_accepted bounty fulfillment_id).

Definition bounty_killed (bounty_id : Z) (kwargs : Kwargs.t) : M unit :=
  bounty ← Bounty_objects_get bounty_id;
  bounty ← call_bounty_client (BountyClient.kill_bounty bounty kwargs);
  call_notification_client (NotificationClient.bounty_killed bounty_id kwargs);;
  call_slack_client (SlackMessageClient.bounty_killed bounty).

Definition contribution_added (bounty_id : Z) (kwargs : Kwargs.t) : M unit :=
  bounty ← Bounty_objects_get bounty_id;
  let inputs := Kwargs.get_inputs kwargs in
  let is_issue_and_activate := dict_get inputs "_issuer" PyNone in
  bounty ← call_bounty_client (BountyClient.add_contribution bounty kwargs);
  if negb (truthy is_issue_and_activate) then
    call_notification_client (NotificationClient.contribution_added bounty_id kwargs);;
    call_slack_client (SlackMessageClient.contribution_added bounty)
  else mret tt.

Definition deadline_extended (bounty_id : Z) (kwargs : Kwargs.t) : M unit :=
  bounty ← Bounty_objects_get bounty_id;
  bounty ← call_bounty_client (BountyClient.extend_deadline bounty kwargs);
  call_notification_client (NotificationClient.deadline_extended bounty_id kwargs);;
  call_slack_client (SlackMessageClient.deadline_extended bounty).

Definition bounty_changed (bounty_id : Z) (kwargs : Kwargs.t) : M unit :=
  bounty ← Bounty_objects_get bounty_id;
  bounty ← call_bounty_client (BountyClient.change_bounty bounty kwargs);
  call_notification_client (NotificationClient.bounty_changed bounty_id kwargs);;
  call_slack_client (SlackMessageClient.bounty_changed bounty).

Definition issuer_transferred (bounty_id : Z) (kwargs : Kwargs.t) : M unit :=
  bounty ← Bounty_objects_get bounty_id;
  bounty ← call_bounty_client (BountyClient.transfer_issuer bounty kwargs);
  call_notification_client (NotificationClient.issuer_transferred bounty_id kwargs);;
  call_slack_client (SlackMessageClient.issuer_transferred bounty).

Definition payout_increased (bounty_id : Z) (kwargs : Kwargs.t) : M unit :=
  bounty ← Bounty_objects_get bounty_id;
  bounty ← call_bounty_client (BountyClient.increase_payout bounty kwargs);
  call_notification_client (NotificationClient.payout_increased bounty_id kwargs);;
  call_slack_client (SlackMessageClient.payout_increased bounty).
End Handlers.

(** The eleven handlers, by name. *)
Inductive Handler :=
| h_bounty_issued
| h_bounty_activated
| h_bounty_fulfilled
| h_fullfillment_updated
| h_fulfillment_accepted
| h_bounty_killed
| h_contribution_added
| h_deadline_extended
| h_bounty_changed
| h_issuer_transferred
| h_payout_increased.

Definition handle (C : Collaborators) (h : Handler) : Z -> Kwargs.t -> M unit :=
  match h with
  | h_bounty_issued => bounty_issued C
  | h_bounty_activated => bounty_activated C
  | h_bounty_fulfilled => bounty_fulfilled C
  | h_fullfillment_updated => fullfillment_updated C
  | h_fulfillment_accepted => fulfillment_accepted C
  | h_bounty_killed => bounty_killed C
  | h_contribution_added => contribution_added C
  | h_deadline_extended => deadline_extended C
  | h_bounty_changed => bounty_changed C
  | h_issuer_transferred => issuer_transferred C
  | h_payout_increased => payout_increased C
  end.

(** ** Exact decimal arithmetic *)

(** The rational a decimal denotes. *)
Definition Decimal_to_Q (x : Decimal) : Q :=
  (inject_Z (coefficient x) * Qpower (10 # 1) (exponent x))%Q.

(** [Decimal(n)] for an integer [n]. *)
Definition Decimal_of_Z (n : Z) : Decimal := mkDecimal n 0.

(** [x * y]: coefficients multiply, exponents add. *)
Definition Decimal_mul (x y : Decimal) : Decimal :=
  mkDecimal (coefficient x * coefficient y) (exponent x + exponent y).

(** [x == y]: numeric comparison, after bringing both to the smaller exponent. *)
Definition Decimal_eqb (x y : Decimal) : bool :=
  let e := Z.min (exponent x) (exponent y) in
  (coefficient x * 10 ^ (exponent x - e) =? coefficient y * 10 ^ (exponent y - e)).

(** [x.scaleb(k)]: multiply by [10 ^ k] by moving the exponent. *)
Definition Decimal_scaleb (x : Decimal) (k : Z) : Decimal :=
  mkDecimal (coefficient x) (exponent x + k).

(** [x.quantize(Decimal(10) ** -places, rounding=ROUND_HALF_UP)]: the result
    has exponent [- places]; dropped digits round to nearest, a tie going
    away from zero. *)
Definition Decimal_quantize_half_up (x : Decimal) (places : Z) : Decimal :=
  let target := - places in
  if target <=? exponent x then
    mkDecimal (coefficient x * 10 ^ (exponent x - target)) target
  else
    let p := 10 ^ (target - exponent x) in
    mkDecimal (Z.sgn (coefficient x) * ((2 * Z.abs (coefficient x) + p) / (2 * p))) target.

(** *** Reading a raw amount *)

Definition digit_of_ascii (c : ascii) : option Z :=
  let n := Z.of_N (N_of_ascii c) in
  if (48 <=? n) && (n <=? 57) then Some (n - 48) else None.

(** Left-to-right reading of a run of decimal digits. *)
Fixpoint parse_digits (s : string) (acc : Z) : option Z :=
  match s with
  | EmptyString => Some acc
  | String c s' =>
      match digit_of_ascii c with
      | Some d => parse_digits s' (10 * acc + d)
      | None => None
      end
  end.

(** An unsigned integer written as a decimal string: one or more digits. *)
Definition Z_of_decimal_string (s : string) : option Z :=
  match s with
  | EmptyString => None
  | String _ _ => parse_digits s 0
  end.

(** The integer a raw amount stands for.  The tests pass raw amounts both as
    decimal strings (['100500']) and as integers ([100]). *)
Definition raw_value (value : PyVal) : option Z :=
  match value with
  | PyStr s => Z_of_decimal_string s
  | PyInt n => Some n
  | _ => None
  end.

(** ** The pricing helpers *)

(** Modelled from the spec: [std_bounties/client_helpers.py], which defines
    [calculate_token_quantity] (the spec's [quantity]), is not among the
    sources; only its tests are.  [quantity(rawValue, decimals)] is
    [rawValue * 10^-decimals], computed by exact decimal scaling.  [None]
    stands for the failure on a raw amount that is not an unsigned integer. *)
Definition calculate_token_quantity (value : PyVal) (decimals : N) : option Decimal :=
  n ← raw_value value;
  Some (Decimal_scaleb (Decimal_of_Z n) (- Z.of_N decimals)).

(** Modelled from the spec: [calculate_usd_price] (the spec's [usdPrice]) of
    the absent [client_helpers.py]:
    [round(quantity(rawValue, decimals) * usdRate, 8 digits, round-half-up)]. *)
Definition calculate_usd_price (value : PyVal) (decimals : N) (usd_rate : Decimal)
  : option Decimal :=
  quantity ← calculate_token_quantity value decimals;
  Some (Decimal_quantize_half_up (Decimal_mul quantity usd_rate) 8).

(** Modelled from the spec: [get_token_pricing] (the spec's [priceForToken])
    of the absent [client_helpers.py], over the Token Registry keyed by
    symbol: [(0, absent)] for an unregistered symbol, otherwise
    [(usdPrice(rawValue, decimals, token.priceUsd), token)]. *)
Definition get_token_pricing (registry : gmap string Token.t)
    (token_symbol : string) (token_decimals : N) (value : PyVal)
  : option (Decimal * option Token.t) :=
  match registry !! token_symbol with
  | None => Some (Decimal_of_Z 0, None)
  | Some token_model =>
      usd_price ← calculate_usd_price value token_decimals (Token.price_usd token_model);
      Some (usd_price, Some token_model)
  end.

(** *** What the pricing helpers are specified against *)

(** The number a digit string denotes, by position. *)
Fixpoint positional_value (s : string) : Z :=
  match s with
  | EmptyString => 0
  | String c s' =>
      default 0 (digit_of_ascii c) * 10 ^ Z.of_nat (String.length s') + positional_value s'
  end.

Fixpoint all_digits (s : string) : bool :=
  match s with
  | EmptyString => true
  | String c s' => bool_decide (is_Some (digit_of_ascii c)) && all_digits s'
  end.

(** A decimal string: non-empty, digits only. *)
Definition is_decimal_string (s : string) : bool :=
  negb (String.eqb s "") && all_digits s.

(** Rounding a rational to [places] fractional digits, half up (a tie goes
    away from zero): the integer [n] such that the rounded value is
    [n * 10^-places]. *)
Definition round_half_up (x : Q) (places : Z) : Z :=
  if Qle_bool 0 x
  then Qfloor (x * Qpower (10 # 1) places + (1 # 2))%Q
  else - Qfloor (- x * Qpower (10 # 1) places + (1 # 2))%Q.

(** ** Concrete collaborators, used to run the handlers *)

Definition sample_bounty (bounty_id : Z) (stage : Stage) : Bounty.t :=
  Bounty.mk bounty_id bounty_id 1 (Decimal_of_Z 1) 1546304461 true stage.

Definition set_stage (stage : Stage) (b : Bounty.t) : Bounty.t :=
  Bounty.mk (Bounty.id b) (Bounty.bounty_id b) (Bounty.fulfillmentAmount b)
    (Bounty.usd_price b) (Bounty.deadline b) (Bounty.paysTokens b) stage.

(** A bounty client that inserts a row on [issue_bounty] (already active
    when the call carries [_value]), activates on [activate_bounty], and
    leaves the table alone otherwise. *)
Definition sample_bounty_client (o : BountyClient.op) (table : list Bounty.t)
  : list Bounty.t * Outcome Bounty.t :=
  match o with
  | BountyClient.issue_bounty bounty_id kwargs =>
      let stage :=
        if truthy (dict_get (Kwargs.get_inputs kwargs) "_value" PyNone)
        then ACTIVE_STAGE else DRAFT_STAGE in
      let b := sample_bounty bounty_id stage in
      (table ++ [b], Returned b)
  | BountyClient.activate_bounty bounty _ =>
      let b := set_stage ACTIVE_STAGE bounty in
      (map (fun r => if bool_decide (Bounty.id r = Bounty.id bounty) then b else r) table,
       Returned b)
  | BountyClient.fulfill_bounty bounty _
  | BountyClient.update_fulfillment bounty _
  | BountyClient.accept_fulfillment bounty _
  | BountyClient.kill_bounty bounty _
  | BountyClient.add_contribution bounty _
  | BountyClient.extend_deadline bounty _
  | BountyClient.change_bounty bounty _
  | BountyClient.transfer_issuer bounty _
  | BountyClient.increase_payout bounty _ => (table, Returned bounty)
  end.

(** Collaborators whose notification and slack calls all return. *)
Definition quiet : Collaborators :=
  mkCollaborators sample_bounty_client (fun _ _ => None) (fun _ _ => None).

(** Collaborators whose notification client is down: every notification call
    raises. *)
Definition notifier_down : Collaborators :=
  mkCollaborators sample_bounty_client
    (fun _ _ => Some (CollaboratorError "notification failed"))
    (fun _ _ => None).

(** Collaborators whose slack client is down. *)
Definition slack_down : Collaborators :=
  mkCollaborators sample_bounty_client
    (fun _ _ => None)
    (fun _ _ => Some (CollaboratorError "slack failed")).

Definition no_kwargs : Kwargs.t := Kwargs.mk None None ∅.

(** The inputs of an [issueAndActivateBounty] call carry both [_issuer] and
    [_value]. *)
Definition issue_and_activate_kwargs : Kwargs.t :=
  Kwargs.mk (Some (<["_issuer" := PyStr "0xabc"]> (<["_value" := PyInt 100]> ∅))) None ∅.

Definition empty_world : World := mkWorld [] [].

(** ** What the claims about the handlers are stated with *)

(** A bounty with this [bounty_id] is in the table. *)
Definition present (bounty_id : Z) (table : list Bounty.t) : Prop :=
  exists b, b ∈ table /\ Bounty.bounty_id b = bounty_id.

(** The reading of "notification failures are never surfaced": whenever a
    handler's commit returned and a later notification or slack call raised,
    the handler itself still returns. *)
Definition notification_failures_isolated (C : Collaborators) (h : Handler)
    (bounty_id : Z) (kwargs : Kwargs.t) (w : World) : Prop :=
  forall c n e,
    let '(w', r) := handle C h bounty_id kwargs w in
    c ∈ log w' -> is_commit c = true -> eff_raised c = None ->
    n ∈ log w' -> is_notification n = true -> eff_raised n = Some e ->
    r = Returned tt.

(** The reading of "[bounty_activated] after an issue-and-activate
    [bounty_issued] is a no-op": when the issuing call carried the flag, the
    activation changes neither the table nor the effect sequence. *)
Definition activation_after_issue_and_activate_is_noop (C : Collaborators)
    (bounty_id : Z) (kwargs : Kwargs.t) (w : World) : Prop :=
  truthy (dict_get (Kwargs.get_inputs kwargs) "_value" PyNone) = true ->
  let w1 := fst (bounty_issued C bounty_id kwargs w) in
  let w2 := fst (bounty_activated C bounty_id kwargs w1) in
  db w2 = db w1 /\ log w2 = log w1.

(** The entry a notification call leaves in the effect sequence. *)
Definition notified (C : Collaborators) (c : NotificationClient.call)
    (table : list Bounty.t) : Effect :=
  mkEffect (CNotify c) (notification_client C c table).

(** The entry a slack call leaves in the effect sequence. *)
Definition slacked (C : Collaborators) (c : SlackMessageClient.call)
    (table : list Bounty.t) : Effect :=
  mkEffect (CSlack c) (slack_client C c table).

(** Two side effects in program order: the second is attempted only when the
    first returned. *)
Definition in_order (first second : Effect) : list Effect :=
  match eff_raised first with
  | None => [first; second]
  | Some _ => [first]
  end.

(** The token saved by [TestCalculationHelpers.setUpClass], and a registry
    holding only it. *)
Definition eth_token : Token.t :=
  Token.mk "ethereum" "Ethereum" "ETH" (Decimal_of_Z 600).

Definition test_registry : gmap string Token.t := {[ "ETH" := eth_token ]}.

(** ** What the handlers are further checked against *)

(** The bounty-client call a handler makes, given the rows that carry the
    [bounty_id]: [bounty_issued] calls [issue_bounty] when there is no such
    row; every other handler calls its own method on the row when there is
    exactly one; otherwise no call is made. *)
Definition own_call (h : Handler) (bounty_id : Z) (kwargs : Kwargs.t)
    (rows : list Bounty.t) : option BountyClient.op :=
  match h, rows with
  | h_bounty_issued, [] => Some (BountyClient.issue_bounty bounty_id kwargs)
  | h_bounty_issued, _ :: _ => None
  | h_bounty_activated, [bounty] => Some (BountyClient.activate_bounty bounty kwargs)
  | h_bounty_fulfilled, [bounty] => Some (BountyClient.fulfill_bounty bounty kwargs)
  | h_fullfillment_updated, [bounty] => Some (BountyClient.update_fulfillment bounty kwargs)
  | h_fulfillment_accepted, [bounty] => Some (BountyClient.accept_fulfillment bounty kwargs)
  | h_bounty_killed, [bounty] => Some (BountyClient.kill_bounty bounty kwargs)
  | h_contribution_added, [bounty] => Some (BountyClient.add_contribution bounty kwargs)
  | h_deadline_extended, [bounty] => Some (BountyClient.extend_deadline bounty kwargs)
  | h_bounty_changed, [bounty] => Some (BountyClient.change_bounty bounty kwargs)
  | h_issuer_transferred, [bounty] => Some (BountyClient.transfer_issuer bounty kwargs)
  | h_payout_increased, [bounty] => Some (BountyClient.increase_payout bounty kwargs)
  | _, _ => None
  end.

(** The handlers whose side effects do not depend on a flag. *)
Definition sends_unconditionally (h : Handler) : bool :=
  match h with
  | h_bounty_issued | h_contribution_added => false
  | _ => true
  end.

(** Only [bounty_activated], on its issue-and-activate branch, calls the
    slack client before the notification client. *)
Definition slack_goes_first (h : Handler) (kwargs : Kwargs.t) : bool :=
  match h with
  | h_bounty_activated => truthy (dict_get (Kwargs.get_inputs kwargs) "_issuer" PyNone)
  | _ => false
  end.

Definition is_notify_call (c : Call) : bool :=
  match c with
  | CNotify _ => true
  | _ => false
  end.

Definition is_slack_call (c : Call) : bool :=
  match c with
  | CSlack _ => true
  | _ => false
  end.

(** A table in which two rows carry [bounty_id] 1. *)
Definition duplicated_table : list Bounty.t :=
  [sample_bounty 1 DRAFT_STAGE; set_stage ACTIVE_STAGE (sample_bounty 1 DRAFT_STAGE)].

(** The bounty a notification call is about. *)
Definition notification_target (c : NotificationClient.call) : Z :=
  match c with
  | NotificationClient.bounty_issued bounty_id
  | NotificationClient.bounty_issued_and_activated bounty_id _
  | NotificationClient.bounty_activated bounty_id _
  | NotificationClient.bounty_fulfilled bounty_id _
  | NotificationClient.fulfillment_updated bounty_id _
  | NotificationClient.fulfillment_accepted bounty_id _
  | NotificationClient.bounty_killed bounty_id _
  | NotificationClient.contribution_added bounty_id _
  | NotificationClient.deadline_extended bounty_id _
  | NotificationClient.bounty_changed bounty_id _
  | NotificationClient.issuer_transferred bounty_id _
  | NotificationClient.payout_increased bounty_id _ => bounty_id
  end.

(** The keyword arguments handed to a notification call;
    [bounty_issued] gets none. *)
Definition notification_kwargs (c : NotificationClient.call) : option Kwargs.t :=
  match c with
  | NotificationClient.bounty_issued _ => None
  | NotificationClient.bounty_issued_and_activated _ kwargs
  | NotificationClient.bounty_activated _ kwargs
  | NotificationClient.bounty_fulfilled _ kwargs
  | NotificationClient.fulfillment_updated _ kwargs
  | NotificationClient.fulfillment_accepted _ kwargs
  | NotificationClient.bounty_killed _ kwargs
  | NotificationClient.contribution_added _ kwargs
  | NotificationClient.deadline_extended _ kwargs
  | NotificationClient.bounty_changed _ kwargs
  | NotificationClient.issuer_transferred _ kwargs
  | NotificationClient.payout_increased _ kwargs => Some kwargs
  end.

(** The bounty object a slack call is handed. *)
Definition slack_subject (c : SlackMessageClient.call) : Bounty.t :=
  match c with
  | SlackMessageClient.bounty_issued bounty
  | SlackMessageClient.bounty_issued_and_activated bounty
  | SlackMessageClient.bounty_activated bounty
  | SlackMessageClient.bounty_fulfilled bounty _
  | SlackMessageClient.fulfillment_updated bounty _
  | SlackMessageClient.fulfillment_accepted bounty _
  | SlackMessageClient.bounty_killed bounty
  | SlackMessageClient.contribution_added bounty
  | SlackMessageClient.deadline_extended bounty
  | SlackMessageClient.bounty_changed bounty
  | SlackMessageClient.issuer_transferred bounty
  | SlackMessageClient.payout_increased bounty => bounty
  end.

(** * Theorems *)

(** ** [Bounty.objects] *)

Lemma objects_filter_nil bounty_id table :
  ~ present bounty_id table -> objects_filter bounty_id table = [].
Proof.
  unfold present, objects_filter. induction table as [|b table IH]; intros Hno.
  - reflexivity.
  - rewrite filter_cons. destruct (decide (Bounty.bounty_id b = bounty_id)) as [Heq|Hne].
    + exfalso. apply Hno. exists b. split; [left | exact Heq].
    + apply IH. intros (b' & Hin & Hid). apply Hno. exists b'. split; [by right | exact Hid].
Qed.

Lemma objects_filter_present bounty_id table :
  present bounty_id table -> queryset_exists (objects_filter bounty_id table) = true.
Proof.
  unfold present, objects_filter. intros (b & Hin & Hid).
  assert (Hb : b ∈ filter (fun b => Bounty.bounty_id b = bounty_id) table)
    by (apply list_elem_of_filter; split; assumption).
  destruct (filter _ table) as [|x l]; [inversion Hb | reflexivity].
Qed.

Lemma objects_get_missing bounty_id table :
  ~ present bounty_id table -> objects_get bounty_id table = Raised DoesNotExist.
Proof. intros Hno. unfold objects_get. by rewrite objects_filter_nil. Qed.

(** ** The handlers *)

Ltac unfold_handlers :=
  unfold handle, bounty_issued, bounty_activated, bounty_fulfilled,
    fullfillment_updated, fulfillment_accepted, bounty_killed,
    contribution_added, deadline_extended, bounty_changed,
    issuer_transferred, payout_increased,
    mbind, M_bind, mret, M_ret, Bounty_objects_get, Bounty_objects_filter,
    call_bounty_client, call_notification_client, call_slack_client in *.

(** C1 (first half, as an equation): with the bounty already in the table,
    [bounty_issued] returns and leaves the world as it found it. *)
Lemma bounty_issued_present C bounty_id kwargs w :
  present bounty_id (db w) -> bounty_issued C bounty_id kwargs w = (w, Returned tt).
Proof.
  intros Hp. unfold_handlers. by rewrite (objects_filter_present _ _ Hp).
Qed.

(** C1: [bounty_issued] for a [bounty_id] already in the store returns
    normally and changes nothing: no row is created or mutated and the effect
    sequence gains no call (so no notification); hence applying it twice
    leaves the same world as applying it once. *)
Theorem bounty_issued_existing_is_noop
    (C : Collaborators) (bounty_id : Z) (kwargs kwargs' : Kwargs.t) (w : World) :
  present bounty_id (db w) ->
  bounty_issued C bounty_id kwargs w = (w, Returned tt)
  /\ (bounty_issued C bounty_id kwargs ;; bounty_issued C bounty_id kwargs') w
     = bounty_issued C bounty_id kwargs w.
Proof.
  intros Hp. split; [by apply bounty_issued_present |].
  unfold mbind at 1. unfold M_bind.
  by rewrite !bounty_issued_present.
Qed.

Lemma bounty_issued_existing_is_noop_witness :
  let w := mkWorld [sample_bounty 1 DRAFT_STAGE] [] in
  bounty_issued notifier_down 1 issue_and_activate_kwargs w = (w, Returned tt)
  /\ (bounty_issued notifier_down 1 issue_and_activate_kwargs ;;
      bounty_issued notifier_down 1 no_kwargs) w
     = bounty_issued notifier_down 1 issue_and_activate_kwargs w.
Proof.
  apply (bounty_issued_existing_is_noop notifier_down 1 issue_and_activate_kwargs
           no_kwargs (mkWorld [sample_bounty 1 DRAFT_STAGE] [])).
  exists (sample_bounty 1 DRAFT_STAGE). split; [left | reflexivity].
Defined.

(** Replay of a first issuance: when the bounty client's [issue_bounty]
    leaves a row with the issued id, a second [bounty_issued] after one that
    returned is a no-op, whatever the table was before. *)
Lemma bounty_issued_replay C bounty_id kwargs kwargs' w w1 :
  (forall table table' b,
      bounty_client C (BountyClient.issue_bounty bounty_id kwargs) table
        = (table', Returned b) -> present bounty_id table') ->
  bounty_issued C bounty_id kwargs w = (w1, Returned tt) ->
  bounty_issued C bounty_id kwargs' w1 = (w1, Returned tt).
Proof.
  intros Hissue Hrun. apply bounty_issued_present.
  unfold_handlers.
  destruct (queryset_exists (objects_filter bounty_id (db w))) eqn:Hex.
  - injection Hrun as <-. unfold objects_filter, present in *.
    destruct (filter _ (db w)) as [|b l] eqn:Hf; [discriminate |].
    assert (Hb : b ∈ filter (fun b => Bounty.bounty_id b = bounty_id) (db w))
      by (rewrite Hf; left).
    apply list_elem_of_filter in Hb. exists b. tauto.
  - destruct (bounty_client C _ (db w)) as [table [b|e]] eqn:Hc; simpl in Hrun.
    + apply Hissue in Hc.
      destruct (negb _); simpl in Hrun.
      * destruct (notification_client C _ _); simpl in Hrun; [discriminate |].
        by injection Hrun as <-.
      * by injection Hrun as <-.
    + discriminate.
Qed.

(** C6: every handler other than [bounty_issued], applied to a [bounty_id]
    that is not in the store, raises [Bounty.DoesNotExist] (the spec's
    [NotFoundError]) and leaves the table and the effect sequence as they
    were. *)
Theorem missing_bounty_raises_DoesNotExist
    (C : Collaborators) (h : Handler) (bounty_id : Z) (kwargs : Kwargs.t) (w : World) :
  h <> h_bounty_issued ->
  ~ present bounty_id (db w) ->
  handle C h bounty_id kwargs w = (w, Raised DoesNotExist).
Proof.
  intros Hh Hno. apply objects_get_missing in Hno.
  destruct h; try congruence; unfold_handlers; by rewrite Hno.
Qed.

Lemma missing_bounty_raises_DoesNotExist_witness :
  handle quiet h_bounty_killed 7 no_kwargs (mkWorld [sample_bounty 1 ACTIVE_STAGE] [])
  = (mkWorld [sample_bounty 1 ACTIVE_STAGE] [], Raised DoesNotExist).
Proof.
  apply (missing_bounty_raises_DoesNotExist quiet h_bounty_killed 7 no_kwargs
           (mkWorld [sample_bounty 1 ACTIVE_STAGE] [])).
  - discriminate.
  - intros (b & Hin & Hid). simpl in Hin.
    apply list_elem_of_singleton in Hin. subst b. vm_compute in Hid. discriminate.
Defined.

(** Run a handler symbolically: split on every lookup and every collaborator
    result that the run in [H] depends on, leaving the final world and
    outcome explicit. *)
Ltac explore_run H :=
  unfold_handlers; unfold outcome_of_raise in H; simpl in H;
  repeat match type of H with
    | context [objects_get ?i ?t] => destruct (objects_get i t) eqn:?; simpl in H
    | context [queryset_exists ?q] => destruct (queryset_exists q) eqn:?; simpl in H
    | context [bounty_client ?c ?o ?t] =>
        destruct (bounty_client c o t) as [? [?|?]] eqn:?; simpl in H
    | context [truthy ?v] => destruct (truthy v) eqn:?; simpl in H
    | context [notification_client ?c ?o ?t] =>
        destruct (notification_client c o t) eqn:?; simpl in H
    | context [slack_client ?c ?o ?t] =>
        destruct (slack_client c o t) eqn:?; simpl in H
    end;
  try discriminate H;
  injection H as <- <-; simpl in *.

(** Split a concrete effect sequence around one of its entries. *)
Ltac split_log H :=
  rewrite <- ?app_assoc in H; simpl in H;
  lazymatch type of H with
  | ?l = ?l ++ _ => rewrite <- (app_nil_r l) in H at 1
  | _ => idtac
  end;
  apply app_inv_head in H;
  repeat match type of H with
    | [] = _ ++ _ :: _ => exfalso; exact (app_cons_not_nil _ _ _ H)
    | _ :: _ = ?pre ++ _ :: _ =>
        destruct pre; simpl in H; injection H; clear H; intros H ?; subst
    end.

(** C7: in every handler the bounty-client call that commits the change comes
    before any notification or slack call: whenever the handler's effect
    sequence contains a notification, the sequence starts with a commit that
    returned normally. *)
Theorem commit_precedes_notification
    (C : Collaborators) (h : Handler) (bounty_id : Z) (kwargs : Kwargs.t)
    (w w' : World) (r : Outcome unit) (pre post : list Effect) (n : Effect) :
  handle C h bounty_id kwargs w = (w', r) ->
  log w' = log w ++ pre ++ n :: post ->
  is_notification n = true ->
  exists o pre', pre = mkEffect (CBounty o) None :: pre'.
Proof.
  intros Hrun Hlog Hn.
  destruct h; explore_run Hrun; split_log Hlog;
    try discriminate Hn; eauto.
Qed.

Lemma commit_precedes_notification_witness :
  let w := mkWorld [sample_bounty 1 ACTIVE_STAGE] [] in
  let commit :=
    mkEffect (CBounty (BountyClient.fulfill_bounty (sample_bounty 1 ACTIVE_STAGE) no_kwargs)) None in
  exists o pre', [commit] = mkEffect (CBounty o) None :: pre'.
Proof.
  intros w commit.
  apply (commit_precedes_notification quiet h_bounty_fulfilled 1 no_kwargs w
           (fst (handle quiet h_bounty_fulfilled 1 no_kwargs w))
           (snd (handle quiet h_bounty_fulfilled 1 no_kwargs w))
           [commit]
           [mkEffect (CSlack (SlackMessageClient.bounty_fulfilled
                                (sample_bounty 1 ACTIVE_STAGE) None)) None]
           (mkEffect (CNotify (NotificationClient.bounty_fulfilled 1 no_kwargs)) None)).
  - apply surjective_pairing.
  - reflexivity.
  - reflexivity.
Defined.

(** C8, as the code has it: no handler catches anything, so when a
    notification or slack call raises after the commit, the handler fails
    with that exception and makes no further call; the table stays the one
    the committed bounty-client call left (nothing is rolled back). *)
Theorem notification_failure_surfaces_without_rollback
    (C : Collaborators) (h : Handler) (bounty_id : Z) (kwargs : Kwargs.t)
    (w w' : World) (r : Outcome unit) (pre post : list Effect) (n : Effect) (e : Exn) :
  handle C h bounty_id kwargs w = (w', r) ->
  log w' = log w ++ pre ++ n :: post ->
  is_notification n = true ->
  eff_raised n = Some e ->
  r = Raised e /\ post = []
  /\ exists o pre', pre = mkEffect (CBounty o) None :: pre'
       /\ db w' = fst (bounty_client C o (db w)).
Proof.
  intros Hrun Hlog Hn He.
  destruct h; explore_run Hrun; split_log Hlog;
    try discriminate Hn; try discriminate He;
    injection He as ->;
    (split; [reflexivity | split; [reflexivity |]]);
    eexists _, _; (split; [reflexivity |]);
    match goal with Hc : bounty_client _ _ _ = _ |- _ => by rewrite Hc end.
Qed.

Lemma notification_failure_surfaces_without_rollback_witness :
  let b := sample_bounty 1 ACTIVE_STAGE in
  let w := mkWorld [b] [] in
  let e := CollaboratorError "notification failed" in
  snd (handle notifier_down h_deadline_extended 1 no_kwargs w) = Raised e
  /\ @nil Effect = []
  /\ exists o pre',
       [mkEffect (CBounty (BountyClient.extend_deadline b no_kwargs)) None]
         = mkEffect (CBounty o) None :: pre'
       /\ db (fst (handle notifier_down h_deadline_extended 1 no_kwargs w))
          = fst (bounty_client notifier_down o (db w)).
Proof.
  intros b w e.
  apply (notification_failure_surfaces_without_rollback notifier_down
           h_deadline_extended 1 no_kwargs w
           (fst (handle notifier_down h_deadline_extended 1 no_kwargs w))
           (snd (handle notifier_down h_deadline_extended 1 no_kwargs w))
           [mkEffect (CBounty (BountyClient.extend_deadline b no_kwargs)) None]
           []
           (mkEffect (CNotify (NotificationClient.deadline_extended 1 no_kwargs)) (Some e))
           e).
  - apply surjective_pairing.
  - reflexivity.
  - reflexivity.
  - reflexivity.
Defined.

(** C8, as the spec states it, fails: with the notification client down,
    [bounty_fulfilled] on an existing bounty commits, the notification call
    raises, and the handler raises. *)
Lemma notification_failures_not_isolated :
  ~ notification_failures_isolated notifier_down h_bounty_fulfilled 1 no_kwargs
      (mkWorld [sample_bounty 1 ACTIVE_STAGE] []).
Proof.
  intros Hiso.
  specialize (Hiso
    (mkEffect (CBounty (BountyClient.fulfill_bounty (sample_bounty 1 ACTIVE_STAGE) no_kwargs)) None)
    (mkEffect (CNotify (NotificationClient.bounty_fulfilled 1 no_kwargs))
       (Some (CollaboratorError "notification failed")))
    (CollaboratorError "notification failed")).
  vm_compute in Hiso.
  assert (Hr : @Raised unit (CollaboratorError "notification failed") = Returned tt).
  { apply Hiso; try reflexivity.
    - left.
    - right. left. }
  discriminate Hr.
Qed.

(** With the issue-and-activate flag ([_value] truthy) a first
    [bounty_issued] commits the new bounty and sends nothing. *)
Lemma bounty_issued_flag_sends_nothing C bounty_id kwargs w table b :
  ~ present bounty_id (db w) ->
  truthy (dict_get (Kwargs.get_inputs kwargs) "_value" PyNone) = true ->
  bounty_client C (BountyClient.issue_bounty bounty_id kwargs) (db w) = (table, Returned b) ->
  bounty_issued C bounty_id kwargs w
  = (mkWorld table
       (log w ++ [mkEffect (CBounty (BountyClient.issue_bounty bounty_id kwargs)) None]),
     Returned tt).
Proof.
  intros Hno Hflag Hc. unfold_handlers.
  rewrite (objects_filter_nil _ _ Hno). simpl. by rewrite Hc, Hflag.
Qed.

(** C9, as the code has it: [bounty_activated] on an existing bounty is never
    a no-op.  It always calls [bounty_client.activate_bounty] and, when that
    returns, sends the activation side effects: the combined
    [bounty_issued_and_activated] slack message and then notification when
    [inputs['_issuer']] is truthy, otherwise the [bounty_activated]
    notification and then slack message. *)
Theorem bounty_activated_always_activates_and_notifies
    (C : Collaborators) (bounty_id : Z) (kwargs : Kwargs.t) (w : World)
    (b : Bounty.t) (table : list Bounty.t) (r : Outcome Bounty.t) :
  objects_get bounty_id (db w) = Returned b ->
  bounty_client C (BountyClient.activate_bounty b kwargs) (db w) = (table, r) ->
  let w' := fst (bounty_activated C bounty_id kwargs w) in
  db w' = table
  /\ exists tail,
       log w' = log w
                ++ mkEffect (CBounty (BountyClient.activate_bounty b kwargs)) (raised_by r)
                   :: tail
       /\ forall b', r = Returned b' ->
            tail =
              if truthy (dict_get (Kwargs.get_inputs kwargs) "_issuer" PyNone)
              then in_order
                     (slacked C (SlackMessageClient.bounty_issued_and_activated b') table)
                     (notified C (NotificationClient.bounty_issued_and_activated
                                    bounty_id kwargs) table)
              else in_order
                     (notified C (NotificationClient.bounty_activated bounty_id kwargs) table)
                     (slacked C (SlackMessageClient.bounty_activated b') table).
Proof.
  intros Hget Hc w'. subst w'. unfold_handlers. rewrite Hget. simpl. rewrite Hc.
  unfold in_order, notified, slacked, outcome_of_raise.
  destruct r as [b1|e]; simpl.
  - destruct (truthy _); simpl.
    + destruct (slack_client C _ table) eqn:Hs; simpl;
        (split; [reflexivity |]); eexists; rewrite <- ?app_assoc; simpl;
        (split; [reflexivity |]); intros b' [= <-]; rewrite ?Hs; reflexivity.
    + destruct (notification_client C _ table) eqn:Hs; simpl;
        (split; [reflexivity |]); eexists; rewrite <- ?app_assoc; simpl;
        (split; [reflexivity |]); intros b' [= <-]; rewrite ?Hs; reflexivity.
  - split; [reflexivity |]. exists []. split; [reflexivity | intros b' [=]].
Qed.

Lemma bounty_activated_always_activates_and_notifies_witness :
  let b := sample_bounty 1 ACTIVE_STAGE in
  let w := mkWorld [b] [] in
  let w' := fst (bounty_activated quiet 1 issue_and_activate_kwargs w) in
  db w' = [b]
  /\ exists tail,
       log w' = log w
                ++ mkEffect (CBounty (BountyClient.activate_bounty b issue_and_activate_kwargs))
                     (raised_by (Returned b))
                   :: tail
       /\ forall b', Returned b = Returned b' ->
            tail =
              if truthy (dict_get (Kwargs.get_inputs issue_and_activate_kwargs) "_issuer" PyNone)
              then in_order
                     (slacked quiet (SlackMessageClient.bounty_issued_and_activated b') [b])
                     (notified quiet (NotificationClient.bounty_issued_and_activated
                                        1 issue_and_activate_kwargs) [b])
              else in_order
                     (notified quiet (NotificationClient.bounty_activated
                                        1 issue_and_activate_kwargs) [b])
                     (slacked quiet (SlackMessageClient.bounty_activated b') [b]).
Proof.
  intros b w.
  apply (bounty_activated_always_activates_and_notifies quiet 1
           issue_and_activate_kwargs w b [b] (Returned b)).
  - reflexivity.
  - reflexivity.
Defined.

(** C9, as the spec states it, fails: issuing bounty 1 with the
    issue-and-activate inputs creates it (here already active, and without
    any notification); the [bounty_activated] that follows still calls
    [activate_bounty] and sends the combined slack message and notification. *)
Lemma activation_after_issue_and_activate_not_noop :
  db (fst (bounty_issued quiet 1 issue_and_activate_kwargs empty_world))
    = [sample_bounty 1 ACTIVE_STAGE]
  /\ ~ activation_after_issue_and_activate_is_noop quiet 1 issue_and_activate_kwargs
         empty_world.
Proof.
  split; [reflexivity |].
  intros Hnoop. destruct Hnoop as [_ Hlog]; [reflexivity |].
  apply (f_equal length) in Hlog. vm_compute in Hlog. discriminate Hlog.
Qed.

(** C10: on an existing bounty [contribution_added] always calls
    [bounty_client.add_contribution], whatever [inputs['_issuer']] is; when
    that call returns it sends the [contribution_added] notification and then
    the slack message exactly when [inputs['_issuer']] is absent or falsy,
    and sends nothing at all when it is truthy. *)
Theorem contribution_added_notifies_iff_no_issuer
    (C : Collaborators) (bounty_id : Z) (kwargs : Kwargs.t) (w : World)
    (b : Bounty.t) (table : list Bounty.t) (r : Outcome Bounty.t) :
  objects_get bounty_id (db w) = Returned b ->
  bounty_client C (BountyClient.add_contribution b kwargs) (db w) = (table, r) ->
  let w' := fst (contribution_added C bounty_id kwargs w) in
  let is_issue_and_activate :=
    truthy (dict_get (Kwargs.get_inputs kwargs) "_issuer" PyNone) in
  db w' = table
  /\ exists tail,
       log w' = log w
                ++ mkEffect (CBounty (BountyClient.add_contribution b kwargs)) (raised_by r)
                   :: tail
       /\ (is_issue_and_activate = true -> tail = [])
       /\ forall b', r = Returned b' ->
            (is_issue_and_activate = false ->
               tail = in_order
                        (notified C (NotificationClient.contribution_added bounty_id kwargs)
                           table)
                        (slacked C (SlackMessageClient.contribution_added b') table))
            /\ ((exists n, n ∈ tail /\ is_notification n = true)
                <-> is_issue_and_activate = false).
Proof.
  intros Hget Hc w' flag. subst w' flag. unfold_handlers. rewrite Hget. simpl. rewrite Hc.
  unfold in_order, notified, slacked, outcome_of_raise.
  destruct r as [b1|e]; simpl.
  - destruct (truthy _); simpl.
    + split; [reflexivity |]. exists [].
      split; [reflexivity |]. split; [reflexivity |].
      intros b' _. split; [discriminate |].
      split; [intros (n & Hin & _); inversion Hin | discriminate].
    + destruct (notification_client C _ table) eqn:Hs; simpl;
        (split; [reflexivity |]); eexists; rewrite <- ?app_assoc; simpl;
        (split; [reflexivity |]); (split; [discriminate |]);
        intros b' [= <-]; (split; [reflexivity |]);
        (split; [reflexivity |]); intros _;
        eexists; (split; [left | reflexivity]).
  - split; [reflexivity |]. exists []. repeat split; intros; try discriminate.
Qed.

Lemma contribution_added_notifies_iff_no_issuer_witness :
  let b := sample_bounty 1 ACTIVE_STAGE in
  let w := mkWorld [b] [] in
  let w' := fst (contribution_added quiet 1 issue_and_activate_kwargs w) in
  let is_issue_and_activate :=
    truthy (dict_get (Kwargs.get_inputs issue_and_activate_kwargs) "_issuer" PyNone) in
  db w' = [b]
  /\ exists tail,
       log w' = log w
                ++ mkEffect (CBounty (BountyClient.add_contribution b issue_and_activate_kwargs))
                     (raised_by (Returned b))
                   :: tail
       /\ (is_issue_and_activate = true -> tail = [])
       /\ forall b', Returned b = Returned b' ->
            (is_issue_and_activate = false ->
               tail = in_order
                        (notified quiet (NotificationClient.contribution_added 1
                                           issue_and_activate_kwargs) [b])
                        (slacked quiet (SlackMessageClient.contribution_added b') [b]))
            /\ ((exists n, n ∈ tail /\ is_notification n = true)
                <-> is_issue_and_activate = false).
Proof.
  intros b w.
  apply (contribution_added_notifies_iff_no_issuer quiet 1
           issue_and_activate_kwargs w b [b] (Returned b)).
  - reflexivity.
  - reflexivity.
Defined.

(** ** Exact decimal arithmetic *)

Lemma ten_nonzero : ~ Qeq (10 # 1) 0.
Proof. discriminate. Qed.

Lemma Qpower10_nonneg (k : Z) :
  0 <= k -> Qeq (Qpower (10 # 1) k) (inject_Z (10 ^ k)).
Proof. intros Hk. by rewrite Zpower_Qpower. Qed.

Lemma pow10_pos (k : Z) : 0 <= k -> 0 < 10 ^ k.
Proof. intros Hk. by apply Z.pow_pos_nonneg. Qed.

(** Trailing zeros of the coefficient can be moved into the exponent. *)
Lemma Decimal_to_Q_shift (c e k : Z) :
  0 <= k ->
  Qeq (Decimal_to_Q (mkDecimal (c * 10 ^ k) e)) (Decimal_to_Q (mkDecimal c (e + k))).
Proof.
  intros Hk. unfold Decimal_to_Q. simpl.
  rewrite inject_Z_mult, (Qpower_plus _ _ _ ten_nonzero), (Qpower10_nonneg k Hk).
  ring.
Qed.

Lemma Decimal_mul_correct (x y : Decimal) :
  Qeq (Decimal_to_Q (Decimal_mul x y)) (Decimal_to_Q x * Decimal_to_Q y).
Proof.
  unfold Decimal_to_Q, Decimal_mul. simpl.
  rewrite inject_Z_mult, (Qpower_plus _ _ _ ten_nonzero). ring.
Qed.

Lemma Decimal_to_Q_align (x : Decimal) (e : Z) :
  e <= exponent x ->
  Qeq (Decimal_to_Q x)
      (inject_Z (coefficient x * 10 ^ (exponent x - e)) * Qpower (10 # 1) e).
Proof.
  intros He. destruct x as [c ex]. simpl in *.
  assert (Hk : 0 <= ex - e) by lia.
  pose proof (Decimal_to_Q_shift c e (ex - e) Hk) as Hs.
  replace (e + (ex - e)) with ex in Hs by lia.
  rewrite <- Hs. reflexivity.
Qed.

(** [Decimal_eqb] is equality of the denoted numbers. *)
Lemma Decimal_eqb_spec (x y : Decimal) :
  Decimal_eqb x y = true <-> Qeq (Decimal_to_Q x) (Decimal_to_Q y).
Proof.
  unfold Decimal_eqb.
  set (e := Z.min (exponent x) (exponent y)).
  rewrite (Decimal_to_Q_align x e), (Decimal_to_Q_align y e) by (subst e; lia).
  rewrite Qmult_inj_r by (apply Qpower_not_0, ten_nonzero).
  rewrite inject_Z_injective. apply Z.eqb_eq.
Qed.

(** ** Reading a raw amount *)

Lemma digit_of_ascii_range (c : ascii) (d : Z) :
  digit_of_ascii c = Some d -> 0 <= d <= 9.
Proof.
  unfold digit_of_ascii.
  destruct (48 <=? Z.of_N (N_of_ascii c)) eqn:Hlo; simpl; [| discriminate].
  destruct (Z.of_N (N_of_ascii c) <=? 57) eqn:Hhi; [| discriminate].
  intros [= <-]. apply Z.leb_le in Hlo. apply Z.leb_le in Hhi. lia.
Qed.

Lemma positional_value_nonneg (s : string) : 0 <= positional_value s.
Proof.
  induction s as [|c s IH]; simpl; [lia |].
  assert (0 <= default 0 (digit_of_ascii c)).
  { destruct (digit_of_ascii c) as [d|] eqn:Hd; simpl; [| lia].
    apply digit_of_ascii_range in Hd. lia. }
  assert (0 < 10 ^ Z.of_nat (String.length s)) by (apply pow10_pos; lia).
  nia.
Qed.

(** Reading digits left to right computes the positional value. *)
Lemma parse_digits_value (s : string) (acc : Z) :
  all_digits s = true ->
  parse_digits s acc
  = Some (acc * 10 ^ Z.of_nat (String.length s) + positional_value s).
Proof.
  revert acc. induction s as [|c s IH]; intros acc Hs; simpl in *.
  - f_equal. lia.
  - apply andb_prop in Hs as [Hc Hs].
    apply bool_decide_eq_true in Hc as [d Hd].
    rewrite Hd. simpl. rewrite (IH _ Hs). f_equal.
    rewrite Nat2Z.inj_succ, Z.pow_succ_r by lia. ring.
Qed.

Lemma Z_of_decimal_string_value (s : string) :
  is_decimal_string s = true ->
  Z_of_decimal_string s = Some (positional_value s).
Proof.
  unfold is_decimal_string, Z_of_decimal_string. intros Hs.
  apply andb_prop in Hs as [Hne Hs].
  destruct s as [|c s]; [discriminate |].
  rewrite (parse_digits_value _ 0 Hs). f_equal.
Qed.

(** ** Rounding *)

Lemma Qfloor_plus_half (a p : Z) :
  0 < p ->
  Qfloor (inject_Z a / inject_Z p + (1 # 2)) = (2 * a + p) / (2 * p).
Proof.
  intros Hp. rewrite Zdiv_Qdiv. apply Qfloor_comp.
  rewrite !inject_Z_plus, !inject_Z_mult.
  assert (Hnz : ~ Qeq (inject_Z p) 0).
  { change 0%Q with (inject_Z 0). rewrite inject_Z_injective. lia. }
  change (inject_Z 2) with (2 # 1). field. exact Hnz.
Qed.

Lemma round_half_up_comp (x y : Q) (places : Z) :
  Qeq x y -> round_half_up x places = round_half_up y places.
Proof.
  intros Hxy. unfold round_half_up.
  rewrite (Qleb_comp 0%Q 0%Q (Qeq_refl 0%Q) x y Hxy).
  destruct (Qle_bool 0 y).
  - apply Qfloor_comp. by rewrite Hxy.
  - f_equal. apply Qfloor_comp. by rewrite Hxy.
Qed.

Lemma Decimal_sign (x : Decimal) :
  Qle_bool 0 (Decimal_to_Q x) = (0 <=? coefficient x).
Proof.
  apply eq_true_iff_eq. rewrite Qle_bool_iff, Z.leb_le. unfold Decimal_to_Q.
  assert (Hpos : (0 < Qpower (10 # 1) (exponent x))%Q) by (by apply Qpower_0_lt).
  rewrite <- (Qmult_0_l (Qpower (10 # 1) (exponent x))).
  rewrite (Qmult_le_r _ _ _ Hpos).
  change 0%Q with (inject_Z 0). by rewrite <- Zle_Qle.
Qed.

Lemma Decimal_to_Q_opp (c e : Z) :
  Qeq (- Decimal_to_Q (mkDecimal c e)) (Decimal_to_Q (mkDecimal (- c) e)).
Proof. unfold Decimal_to_Q. simpl. rewrite inject_Z_opp. ring. Qed.

(** A decimal scaled by [10 ^ places], as a fraction of integers. *)
Lemma Decimal_scaled_whole (c e places : Z) :
  - places <= e ->
  Qeq (Decimal_to_Q (mkDecimal c e) * Qpower (10 # 1) places)
      (inject_Z (c * 10 ^ (e + places)) / inject_Z 1).
Proof.
  intros He. unfold Decimal_to_Q. simpl.
  rewrite inject_Z_mult, <- (Qpower10_nonneg (e + places)) by lia.
  rewrite (Qpower_plus _ _ _ ten_nonzero). change (inject_Z 1) with 1%Q. field.
Qed.

Lemma Decimal_scaled_fraction (c e places : Z) :
  e < - places ->
  Qeq (Decimal_to_Q (mkDecimal c e) * Qpower (10 # 1) places)
      (inject_Z c / inject_Z (10 ^ (- places - e))).
Proof.
  intros He. unfold Decimal_to_Q. simpl.
  rewrite <- (Qpower10_nonneg (- places - e)) by lia.
  replace (- places - e) with (- (e + places)) by lia.
  rewrite Qpower_opp, (Qpower_plus _ _ _ ten_nonzero).
  field. split; apply Qpower_not_0, ten_nonzero.
Qed.

(** [Decimal_quantize_half_up] computes round-half-up of the denoted number
    and returns it with exactly [places] fractional digits. *)
Lemma Decimal_quantize_half_up_spec (x : Decimal) (places : Z) :
  exponent (Decimal_quantize_half_up x places) = - places
  /\ coefficient (Decimal_quantize_half_up x places)
     = round_half_up (Decimal_to_Q x) places.
Proof.
  destruct x as [c e]. unfold Decimal_quantize_half_up, round_half_up.
  rewrite Decimal_sign. cbn [coefficient exponent].
  destruct (- places <=? e) eqn:Hcase; cbn [coefficient exponent]; (split; [reflexivity |]).
  - apply Z.leb_le in Hcase.
    replace (e - - places) with (e + places) by lia.
    destruct (0 <=? c) eqn:Hsign.
    + rewrite (Qfloor_comp _ _ (Qplus_comp _ _ (Decimal_scaled_whole c e places Hcase)
                                  _ _ (Qeq_refl (1 # 2)))).
      rewrite Qfloor_plus_half by lia.
      apply Z.div_unique with (r := 1); lia.
    + assert (Hneg : Qeq (- Decimal_to_Q (mkDecimal c e) * Qpower (10 # 1) places)
                         (inject_Z (- c * 10 ^ (e + places)) / inject_Z 1)).
      { rewrite Decimal_to_Q_opp. by apply Decimal_scaled_whole. }
      rewrite (Qfloor_comp _ _ (Qplus_comp _ _ Hneg _ _ (Qeq_refl (1 # 2)))).
      rewrite Qfloor_plus_half by lia.
      rewrite <- (Z.div_unique (2 * (- c * 10 ^ (e + places)) + 1) (2 * 1)
                    (- c * 10 ^ (e + places)) 1); lia.
  - apply Z.leb_gt in Hcase.
    assert (Hp : 0 < 10 ^ (- places - e)) by (apply pow10_pos; lia).
    destruct (0 <=? c) eqn:Hsign.
    + apply Z.leb_le in Hsign.
      rewrite (Qfloor_comp _ _ (Qplus_comp _ _ (Decimal_scaled_fraction c e places Hcase)
                                  _ _ (Qeq_refl (1 # 2)))).
      rewrite Qfloor_plus_half by exact Hp.
      destruct (Z.eq_dec c 0) as [-> | Hc].
      * symmetry. apply Z.div_small. lia.
      * rewrite Z.sgn_pos, Z.abs_eq by lia. lia.
    + apply Z.leb_gt in Hsign.
      assert (Hneg : Qeq (- Decimal_to_Q (mkDecimal c e) * Qpower (10 # 1) places)
                         (inject_Z (- c) / inject_Z (10 ^ (- places - e)))).
      { rewrite Decimal_to_Q_opp. by apply Decimal_scaled_fraction. }
      rewrite (Qfloor_comp _ _ (Qplus_comp _ _ Hneg _ _ (Qeq_refl (1 # 2)))).
      rewrite Qfloor_plus_half by exact Hp.
      rewrite Z.sgn_neg, Z.abs_neq by lia. lia.
Qed.

(** ** The pricing helpers *)

Lemma calculate_token_quantity_value (value : PyVal) (v : Z) (decimals : N) :
  raw_value value = Some v ->
  calculate_token_quantity value decimals = Some (mkDecimal v (- Z.of_N decimals))
  /\ Qeq (Decimal_to_Q (mkDecimal v (- Z.of_N decimals)))
         (inject_Z v / inject_Z (10 ^ Z.of_N decimals)).
Proof.
  intros Hv. unfold calculate_token_quantity. rewrite Hv. simpl.
  split; [reflexivity |].
  unfold Decimal_to_Q. simpl.
  rewrite Qpower_opp, Qpower10_nonneg by lia. reflexivity.
Qed.

(** C3: for a decimal string [raw] and any [decimals], [quantity] returns the
    decimal whose value is exactly (the number [raw] denotes) / 10^decimals;
    [quantity("100500", 3) == 100.5] and [quantity("500", 3) == 0.5]. *)
Theorem calculate_token_quantity_exact (raw : string) (decimals : N) :
  is_decimal_string raw = true ->
  (exists q,
      calculate_token_quantity (PyStr raw) decimals = Some q
      /\ Qeq (Decimal_to_Q q)
             (inject_Z (positional_value raw) / inject_Z (10 ^ Z.of_N decimals)))
  /\ (q ← calculate_token_quantity (PyStr "100500") 3;
      Some (Decimal_eqb q (mkDecimal 1005 (-1)))) = Some true
  /\ (q ← calculate_token_quantity (PyStr "500") 3;
      Some (Decimal_eqb q (mkDecimal 5 (-1)))) = Some true.
Proof.
  intros Hraw. split; [| split; reflexivity].
  destruct (calculate_token_quantity_value (PyStr raw) (positional_value raw) decimals)
    as [Hq Hval]; [by apply Z_of_decimal_string_value |].
  eexists. split; [exact Hq | exact Hval].
Qed.

Lemma calculate_token_quantity_exact_witness :
  (exists q,
      calculate_token_quantity (PyStr "100000") 3 = Some q
      /\ Qeq (Decimal_to_Q q)
             (inject_Z (positional_value "100000") / inject_Z (10 ^ Z.of_N 3)))
  /\ (q ← calculate_token_quantity (PyStr "100500") 3;
      Some (Decimal_eqb q (mkDecimal 1005 (-1)))) = Some true
  /\ (q ← calculate_token_quantity (PyStr "500") 3;
      Some (Decimal_eqb q (mkDecimal 5 (-1)))) = Some true.
Proof.
  apply (calculate_token_quantity_exact "100000" 3). reflexivity.
Defined.

(** C5: for a raw amount standing for a non-negative integer [v] that
    [10^d] divides, [quantity(v, d) * 10^d == v] exactly, and [quantity(v, d)]
    is the integer [v / 10^d]: scaling loses nothing. *)
Theorem calculate_token_quantity_round_trip (value : PyVal) (v : Z) (d : N) :
  raw_value value = Some v ->
  0 <= v ->
  (10 ^ Z.of_N d | v) ->
  exists q,
    calculate_token_quantity value d = Some q
    /\ Decimal_eqb (Decimal_mul q (Decimal_of_Z (10 ^ Z.of_N d))) (Decimal_of_Z v) = true
    /\ Decimal_eqb q (Decimal_of_Z (v / 10 ^ Z.of_N d)) = true.
Proof.
  intros Hv Hnonneg [k Hk].
  destruct (calculate_token_quantity_value value v d Hv) as [Hq Hval].
  assert (Hp : 0 < 10 ^ Z.of_N d) by (apply pow10_pos; lia).
  assert (Hnz : ~ Qeq (inject_Z (10 ^ Z.of_N d)) 0).
  { change 0%Q with (inject_Z 0). rewrite inject_Z_injective. lia. }
  eexists. split; [exact Hq |]. split; apply Decimal_eqb_spec.
  - rewrite Decimal_mul_correct, Hval. unfold Decimal_of_Z, Decimal_to_Q. simpl.
    field. exact Hnz.
  - rewrite Hval. subst v. rewrite Z.div_mul by lia.
    unfold Decimal_of_Z, Decimal_to_Q. simpl. rewrite inject_Z_mult.
    field. exact Hnz.
Qed.

Lemma calculate_token_quantity_round_trip_witness :
  exists q,
    calculate_token_quantity (PyStr "100000") 3 = Some q
    /\ Decimal_eqb (Decimal_mul q (Decimal_of_Z (10 ^ Z.of_N 3))) (Decimal_of_Z 100000) = true
    /\ Decimal_eqb q (Decimal_of_Z (100000 / 10 ^ Z.of_N 3)) = true.
Proof.
  apply (calculate_token_quantity_round_trip (PyStr "100000") 100000 3).
  - reflexivity.
  - lia.
  - exists 100. reflexivity.
Defined.

(** C2: for a decimal string [raw], any [decimals] and any decimal rate,
    [usdPrice] returns [quantity(raw, decimals) * usd_rate] rounded half up
    to exactly 8 fractional digits, on integers throughout;
    [usdPrice("123456789123456789", 9, 1) == 123456789.12345679] and
    [usdPrice("100000", 2, 2) == 2000]. *)
Theorem calculate_usd_price_rounds_half_up
    (raw : string) (decimals : N) (usd_rate : Decimal) :
  is_decimal_string raw = true ->
  (exists quantity usd_price,
      calculate_token_quantity (PyStr raw) decimals = Some quantity
      /\ calculate_usd_price (PyStr raw) decimals usd_rate = Some usd_price
      /\ exponent usd_price = -8
      /\ coefficient usd_price
         = round_half_up (Decimal_to_Q quantity * Decimal_to_Q usd_rate) 8)
  /\ (p ← calculate_usd_price (PyStr "123456789123456789") 9 (Decimal_of_Z 1);
      Some (Decimal_eqb p (mkDecimal 12345678912345679 (-8)))) = Some true
  /\ (p ← calculate_usd_price (PyStr "100000") 2 (Decimal_of_Z 2);
      Some (Decimal_eqb p (Decimal_of_Z 2000))) = Some true.
Proof.
  intros Hraw. split; [| split; vm_compute; reflexivity].
  destruct (calculate_token_quantity_value (PyStr raw) (positional_value raw) decimals)
    as [Hq _]; [by apply Z_of_decimal_string_value |].
  unfold calculate_usd_price. rewrite Hq. simpl.
  eexists _, _. split; [reflexivity |]. split; [reflexivity |].
  destruct (Decimal_quantize_half_up_spec
              (Decimal_mul (mkDecimal (positional_value raw) (- Z.of_N decimals)) usd_rate) 8)
    as [Hexp Hcoef].
  split; [exact Hexp |].
  rewrite Hcoef. apply round_half_up_comp, Decimal_mul_correct.
Qed.

Lemma calculate_usd_price_rounds_half_up_witness :
  (exists quantity usd_price,
      calculate_token_quantity (PyStr "125") 9 = Some quantity
      /\ calculate_usd_price (PyStr "125") 9 (mkDecimal 3 0) = Some usd_price
      /\ exponent usd_price = -8
      /\ coefficient usd_price
         = round_half_up (Decimal_to_Q quantity * Decimal_to_Q (mkDecimal 3 0)) 8)
  /\ (p ← calculate_usd_price (PyStr "123456789123456789") 9 (Decimal_of_Z 1);
      Some (Decimal_eqb p (mkDecimal 12345678912345679 (-8)))) = Some true
  /\ (p ← calculate_usd_price (PyStr "100000") 2 (Decimal_of_Z 2);
      Some (Decimal_eqb p (Decimal_of_Z 2000))) = Some true.
Proof.
  apply (calculate_usd_price_rounds_half_up "125" 9 (mkDecimal 3 0)). reflexivity.
Defined.

(** C4: [priceForToken] returns [(0, absent)] for a symbol that is not in
    the Token Registry, whatever the raw amount is, so that case never fails;
    for a registered symbol it returns
    [(usdPrice(rawValue, decimals, token.priceUsd), token)], which is a
    result whenever the raw amount is an unsigned integer.  The two tests:
    ['NEX'] gives [(0, None)], ['ETH'] at 600 USD gives [0.6] for 100 units
    of a 5-decimals token. *)
Theorem get_token_pricing_by_registration
    (registry : gmap string Token.t) (token_symbol : string)
    (token_decimals : N) (value : PyVal) :
  (registry !! token_symbol = None ->
   get_token_pricing registry token_symbol token_decimals value
   = Some (Decimal_of_Z 0, None))
  /\ (forall token_model,
        registry !! token_symbol = Some token_model ->
        get_token_pricing registry token_symbol token_decimals value
        = (usd_price ← calculate_usd_price value token_decimals
                          (Token.price_usd token_model);
           Some (usd_price, Some token_model)))
  /\ (forall token_model v,
        registry !! token_symbol = Some token_model ->
        raw_value value = Some v ->
        exists usd_price,
          get_token_pricing registry token_symbol token_decimals value
          = Some (usd_price, Some token_model))
  /\ get_token_pricing test_registry "NEX" 5 (PyInt 100) = Some (Decimal_of_Z 0, None)
  /\ ('(usd_price, token_model) ← get_token_pricing test_registry "ETH" 5 (PyInt 100);
      Some (Decimal_eqb usd_price (mkDecimal 6 (-1)), token_model))
     = Some (true, Some eth_token).
Proof.
  unfold get_token_pricing. split; [| split; [| split; [| split]]].
  - by intros ->.
  - by intros token_model ->.
  - intros token_model v -> Hv.
    unfold calculate_usd_price.
    destruct (calculate_token_quantity_value value v token_decimals Hv) as [-> _].
    simpl. eauto.
  - reflexivity.
  - vm_compute. reflexivity.
Qed.

Lemma get_token_pricing_by_registration_witness :
  get_token_pricing test_registry "NEX" 5 (PyStr "not a number")
  = Some (Decimal_of_Z 0, None).
Proof.
  apply (proj1 (get_token_pricing_by_registration test_registry "NEX" 5
                  (PyStr "not a number"))).
  reflexivity.
Defined.

(** ** Further properties of the handlers *)

(** As [explore_run], splitting on the rows that carry the [bounty_id]. *)
Ltac explore_rows H :=
  unfold_handlers; unfold outcome_of_raise, objects_get in H; simpl in H;
  repeat match type of H with
    | context [objects_filter ?i ?t] =>
        destruct (objects_filter i t) as [|? [|? ?]] eqn:?; simpl in H
    | context [bounty_client ?c ?o ?t] =>
        destruct (bounty_client c o t) as [? [?|?]] eqn:?; simpl in H
    | context [truthy ?v] => destruct (truthy v) eqn:?; simpl in H
    | context [notification_client ?c ?o ?t] =>
        destruct (notification_client c o t) eqn:?; simpl in H
    | context [slack_client ?c ?o ?t] =>
        destruct (slack_client c o t) eqn:?; simpl in H
    end;
  try discriminate H;
  injection H as <- <-; simpl in *.

(** Identify the new part of a log. *)
Ltac new_log H :=
  rewrite <- ?app_assoc in H; simpl in H;
  lazymatch type of H with
  | ?l = ?l ++ _ => rewrite <- (app_nil_r l) in H at 1
  | _ => idtac
  end;
  apply app_inv_head in H; subst.

(** X1: when several rows carry the [bounty_id], [Bounty.objects.get] raises
    [MultipleObjectsReturned]: every handler but [bounty_issued] fails with
    it before calling any collaborator, while [bounty_issued], which only
    asks whether a row exists, returns without doing anything. *)
Theorem duplicate_rows_stop_every_handler
    (C : Collaborators) (h : Handler) (bounty_id : Z) (kwargs : Kwargs.t)
    (w : World) (b1 b2 : Bounty.t) (rest : list Bounty.t) :
  objects_filter bounty_id (db w) = b1 :: b2 :: rest ->
  handle C h bounty_id kwargs w
  = (w, match h with
        | h_bounty_issued => Returned tt
        | _ => Raised MultipleObjectsReturned
        end).
Proof.
  intros Hrows. destruct h; unfold_handlers; unfold objects_get; by rewrite Hrows.
Qed.

Lemma duplicate_rows_stop_every_handler_witness :
  handle quiet h_payout_increased 1 no_kwargs (mkWorld duplicated_table [])
  = (mkWorld duplicated_table [], Raised MultipleObjectsReturned).
Proof.
  apply (duplicate_rows_stop_every_handler quiet h_payout_increased 1 no_kwargs
           (mkWorld duplicated_table [])
           (sample_bounty 1 DRAFT_STAGE)
           (set_stage ACTIVE_STAGE (sample_bounty 1 DRAFT_STAGE)) []).
  reflexivity.
Defined.



(** X3: a handler makes at most one bounty-client call, and makes it first.
    It is the handler's own method, applied to the only row that carries the
    [bounty_id] and to the caller's keyword arguments ([issue_bounty] on the
    id itself, and only when no row carries it); the table afterwards is the
    one that call left, and whatever follows are notification or slack calls.
    When the lookup does not allow the call, nothing at all happens. *)
Theorem handler_commits_once_with_own_method
    (C : Collaborators) (h : Handler) (bounty_id : Z) (kwargs : Kwargs.t)
    (w w' : World) (r : Outcome unit) (new : list Effect) :
  handle C h bounty_id kwargs w = (w', r) ->
  log w' = log w ++ new ->
  match own_call h bounty_id kwargs (objects_filter bounty_id (db w)) with
  | None => w' = w /\ new = []
  | Some o =>
      db w' = fst (bounty_client C o (db w))
      /\ exists tail,
           new = mkEffect (CBounty o) (raised_by (snd (bounty_client C o (db w)))) :: tail
           /\ Forall (fun x => is_notification x = true) tail
  end.
Proof.
  intros Hrun Hlog.
  destruct h; explore_rows Hrun; new_log Hlog;
    repeat match goal with
      | Hc : bounty_client _ _ _ = _ |- _ => rewrite Hc; clear Hc
      end; simpl;
    try (split; [by destruct w | reflexivity]);
    (split; [reflexivity |]); eexists; (split; [reflexivity |]);
    repeat constructor.
Qed.

Lemma handler_commits_once_with_own_method_witness :
  let b := sample_bounty 1 ACTIVE_STAGE in
  let w := mkWorld [b] [] in
  let o := BountyClient.kill_bounty b no_kwargs in
  db (fst (handle slack_down h_bounty_killed 1 no_kwargs w))
    = fst (bounty_client slack_down o (db w))
  /\ exists tail,
       log (fst (handle slack_down h_bounty_killed 1 no_kwargs w))
         = mkEffect (CBounty o) (raised_by (snd (bounty_client slack_down o (db w)))) :: tail
       /\ Forall (fun x => is_notification x = true) tail.
Proof.
  intros b w o.
  apply (handler_commits_once_with_own_method slack_down h_bounty_killed 1 no_kwargs w
           (fst (handle slack_down h_bounty_killed 1 no_kwargs w))
           (snd (handle slack_down h_bounty_killed 1 no_kwargs w))
           (log (fst (handle slack_down h_bounty_killed 1 no_kwargs w)))).
  - apply surjective_pairing.
  - reflexivity.
Defined.

Ltac all_returned := repeat (constructor; [reflexivity |]); constructor.

(** X4: no handler swallows or invents an exception.  A handler returns only
    if every call it made returned; when it raises [e], either the lookup
    raised [e] and no call was made, or the last call it made raised [e] and
    all the calls before it returned. *)
Theorem handler_raises_what_its_last_call_raised
    (C : Collaborators) (h : Handler) (bounty_id : Z) (kwargs : Kwargs.t)
    (w w' : World) (r : Outcome unit) (new : list Effect) :
  handle C h bounty_id kwargs w = (w', r) ->
  log w' = log w ++ new ->
  match r with
  | Returned _ => Forall (fun x => eff_raised x = None) new
  | Raised e =>
      (new = [] /\ h <> h_bounty_issued /\ objects_get bounty_id (db w) = Raised e)
      \/ exists init last,
           new = init ++ [last]
           /\ eff_raised last = Some e
           /\ Forall (fun x => eff_raised x = None) init
  end.
Proof.
  intros Hrun Hlog.
  destruct h; explore_run Hrun; new_log Hlog;
    try solve [all_returned];
    try solve [left; split; [reflexivity | split; [discriminate | reflexivity]]];
    right;
    first
      [ eexists [], _; split; [reflexivity | split; [reflexivity | all_returned]]
      | eexists [_], _; split; [reflexivity | split; [reflexivity | all_returned]]
      | eexists [_; _], _; split; [reflexivity | split; [reflexivity | all_returned]] ].
Qed.

Lemma handler_raises_what_its_last_call_raised_witness :
  let b := sample_bounty 1 ACTIVE_STAGE in
  let w := mkWorld [b] [] in
  (log (fst (handle slack_down h_bounty_changed 1 no_kwargs w)) = []
   /\ h_bounty_changed <> h_bounty_issued
   /\ objects_get 1 (db w) = Raised (CollaboratorError "slack failed"))
  \/ exists init last,
       log (fst (handle slack_down h_bounty_changed 1 no_kwargs w)) = init ++ [last]
       /\ eff_raised last = Some (CollaboratorError "slack failed")
       /\ Forall (fun x => eff_raised x = None) init.
Proof.
  intros b w.
  apply (handler_raises_what_its_last_call_raised slack_down h_bounty_changed 1
           no_kwargs w
           (fst (handle slack_down h_bounty_changed 1 no_kwargs w))
           (Raised (CollaboratorError "slack failed"))
           (log (fst (handle slack_down h_bounty_changed 1 no_kwargs w)))).
  - reflexivity.
  - reflexivity.
Defined.

(** X5: a handler whose side effects do not hang on a flag (all but
    [bounty_issued] and [contribution_added]) cannot return without having
    sent both: its calls are then exactly the commit, one notification and
    one slack message, the notification first, except on the
    issue-and-activate branch of [bounty_activated], where slack is first. *)
Theorem returning_handler_sent_notification_and_slack
    (C : Collaborators) (h : Handler) (bounty_id : Z) (kwargs : Kwargs.t)
    (w w' : World) (new : list Effect) :
  sends_unconditionally h = true ->
  handle C h bounty_id kwargs w = (w', Returned tt) ->
  log w' = log w ++ new ->
  exists commit first second,
    new = [commit; first; second]
    /\ is_commit commit = true
    /\ is_notify_call (eff_call first) = negb (slack_goes_first h kwargs)
    /\ is_slack_call (eff_call first) = slack_goes_first h kwargs
    /\ is_notify_call (eff_call second) = slack_goes_first h kwargs
    /\ is_slack_call (eff_call second) = negb (slack_goes_first h kwargs).
Proof.
  intros Hh Hrun Hlog.
  remember (Returned tt) as r eqn:Hr in Hrun.
  destruct h; try discriminate Hh; explore_run Hrun; try discriminate Hr;
    new_log Hlog;
    eexists _, _, _; (split; [reflexivity |]); simpl;
    repeat match goal with
      | Ht : truthy _ = _ |- _ => rewrite Ht; clear Ht
      end;
    repeat split.
Qed.

Lemma returning_handler_sent_notification_and_slack_witness :
  let w := mkWorld [sample_bounty 1 DRAFT_STAGE] [] in
  exists commit first second,
    log (fst (handle quiet h_bounty_activated 1 issue_and_activate_kwargs w))
      = [commit; first; second]
    /\ is_commit commit = true
    /\ is_notify_call (eff_call first)
       = negb (slack_goes_first h_bounty_activated issue_and_activate_kwargs)
    /\ is_slack_call (eff_call first)
       = slack_goes_first h_bounty_activated issue_and_activate_kwargs
    /\ is_notify_call (eff_call second)
       = slack_goes_first h_bounty_activated issue_and_activate_kwargs
    /\ is_slack_call (eff_call second)
       = negb (slack_goes_first h_bounty_activated issue_and_activate_kwargs).
Proof.
  intros w.
  apply (returning_handler_sent_notification_and_slack quiet h_bounty_activated 1
           issue_and_activate_kwargs w
           (fst (handle quiet h_bounty_activated 1 issue_and_activate_kwargs w))
           (log (fst (handle quiet h_bounty_activated 1 issue_and_activate_kwargs w)))).
  - reflexivity.
  - reflexivity.
  - reflexivity.
Defined.

(** X6: the side effects of a handler are about the event it was given:
    every notification call carries the event's [bounty_id] and, except for
    [notification_client.bounty_issued], which takes the id alone, the
    caller's keyword arguments unchanged; every slack call is handed the
    bounty object of the bounty-client call this handler made. *)
Theorem side_effects_are_about_the_event
    (C : Collaborators) (h : Handler) (bounty_id : Z) (kwargs : Kwargs.t)
    (w w' : World) (r : Outcome unit) (new : list Effect) (x : Effect) :
  handle C h bounty_id kwargs w = (w', r) ->
  log w' = log w ++ new ->
  x ∈ new ->
  match eff_call x with
  | CBounty _ => True
  | CNotify c =>
      notification_target c = bounty_id
      /\ (notification_kwargs c = Some kwargs
          \/ c = NotificationClient.bounty_issued bounty_id)
  | CSlack c =>
      exists o,
        own_call h bounty_id kwargs (objects_filter bounty_id (db w)) = Some o
        /\ snd (bounty_client C o (db w)) = Returned (slack_subject c)
  end.
Proof.
  intros Hrun Hlog Hx.
  destruct h; explore_rows Hrun; new_log Hlog;
    repeat match goal with
      | H : _ ∈ _ :: _ |- _ => apply elem_of_cons in H as [-> | H]
      | H : _ ∈ [] |- _ => inversion H
      end;
    simpl; auto;
    eexists; (split; [reflexivity |]);
    match goal with
    | Hc : bounty_client _ _ _ = _ |- _ => by rewrite Hc
    end.
Qed.

Lemma side_effects_are_about_the_event_witness :
  let b := sample_bounty 1 ACTIVE_STAGE in
  let w := mkWorld [b] [] in
  let kwargs := Kwargs.mk None (Some 4) ∅ in
  exists o,
    own_call h_fulfillment_accepted 1 kwargs (objects_filter 1 (db w)) = Some o
    /\ snd (bounty_client quiet o (db w))
       = Returned (slack_subject (SlackMessageClient.fulfillment_accepted b (Some 4))).
Proof.
  intros b w kwargs.
  apply (side_effects_are_about_the_event quiet h_fulfillment_accepted 1 kwargs w
           (fst (handle quiet h_fulfillment_accepted 1 kwargs w))
           (snd (handle quiet h_fulfillment_accepted 1 kwargs w))
           (log (fst (handle quiet h_fulfillment_accepted 1 kwargs w)))
           (mkEffect (CSlack (SlackMessageClient.fulfillment_accepted b (Some 4))) None)).
  - apply surjective_pairing.
  - reflexivity.
  - right. right. left.
Defined.

(** X7: the three events of one issue-and-activate call, handled in a row
    with the call's inputs (both [_value] and [_issuer] truthy) for a new
    [bounty_id]: when all three handlers return, the bounty client was called
    three times and exactly one slack message and one notification went out,
    the combined [bounty_issued_and_activated] ones, sent by
    [bounty_activated]. *)
Theorem issue_and_activate_events_send_one_pair
    (C : Collaborators) (bounty_id : Z) (kwargs : Kwargs.t)
    (w w' : World) (new : list Effect) :
  ~ present bounty_id (db w) ->
  truthy (dict_get (Kwargs.get_inputs kwargs) "_value" PyNone) = true ->
  truthy (dict_get (Kwargs.get_inputs kwargs) "_issuer" PyNone) = true ->
  (bounty_issued C bounty_id kwargs;;
   contribution_added C bounty_id kwargs;;
   bounty_activated C bounty_id kwargs) w = (w', Returned tt) ->
  log w' = log w ++ new ->
  exists contributed_to activated activated',
    map eff_call new
    = [CBounty (BountyClient.issue_bounty bounty_id kwargs);
       CBounty (BountyClient.add_contribution contributed_to kwargs);
       CBounty (BountyClient.activate_bounty activated kwargs);
       CSlack (SlackMessageClient.bounty_issued_and_activated activated');
       CNotify (NotificationClient.bounty_issued_and_activated bounty_id kwargs)].
Proof.
  intros Hno Hvalue Hissuer Hrun Hlog.
  remember (Returned tt) as r eqn:Hr in Hrun.
  unfold_handlers. rewrite (objects_filter_nil _ _ Hno) in Hrun.
  rewrite Hvalue, Hissuer in Hrun.
  explore_run Hrun; try discriminate Hr.
  new_log Hlog. simpl. eauto.
Qed.

Lemma issue_and_activate_events_send_one_pair_witness :
  exists contributed_to activated activated',
    map eff_call
      (log (fst ((bounty_issued quiet 1 issue_and_activate_kwargs;;
                  contribution_added quiet 1 issue_and_activate_kwargs;;
                  bounty_activated quiet 1 issue_and_activate_kwargs) empty_world)))
    = [CBounty (BountyClient.issue_bounty 1 issue_and_activate_kwargs);
       CBounty (BountyClient.add_contribution contributed_to issue_and_activate_kwargs);
       CBounty (BountyClient.activate_bounty activated issue_and_activate_kwargs);
       CSlack (SlackMessageClient.bounty_issued_and_activated activated');
       CNotify (NotificationClient.bounty_issued_and_activated 1 issue_and_activate_kwargs)].
Proof.
  apply (issue_and_activate_events_send_one_pair quiet 1 issue_and_activate_kwargs
           empty_world
           (fst ((bounty_issued quiet 1 issue_and_activate_kwargs;;
                  contribution_added quiet 1 issue_and_activate_kwargs;;
                  bounty_activated quiet 1 issue_and_activate_kwargs) empty_world))).
  - intros (b & Hin & _). inversion Hin.
  - reflexivity.
  - reflexivity.
  - reflexivity.
  - reflexivity.
Defined.

(** X8: issuance side effects are not retried.  Once [issue_bounty] has
    left a row with the id, a later [bounty_issued] for that id returns
    without any call, even when the first one failed in its notification or
    slack call: a replayed event does not send what the failed one missed. *)
Theorem bounty_issued_is_not_retried
    (C : Collaborators) (bounty_id : Z) (kwargs kwargs' : Kwargs.t)
    (w w1 : World) (r : Outcome unit) (table : list Bounty.t) (b : Bounty.t) :
  bounty_client C (BountyClient.issue_bounty bounty_id kwargs) (db w) = (table, Returned b) ->
  present bounty_id table ->
  bounty_issued C bounty_id kwargs w = (w1, r) ->
  bounty_issued C bounty_id kwargs' w1 = (w1, Returned tt).
Proof.
  intros Hc Hp Hrun. apply bounty_issued_present.
  unfold_handlers.
  destruct (queryset_exists (objects_filter bounty_id (db w))) eqn:Hex.
  - injection Hrun as <- <-. unfold objects_filter, present in *.
    destruct (filter _ (db w)) as [|b0 l] eqn:Hf; [discriminate |].
    assert (Hb : b0 ∈ filter (fun b => Bounty.bounty_id b = bounty_id) (db w))
      by (rewrite Hf; left).
    apply list_elem_of_filter in Hb. exists b0. tauto.
  - rewrite Hc in Hrun. simpl in Hrun. unfold outcome_of_raise in Hrun.
    destruct (negb _); simpl in Hrun;
      [destruct (notification_client C _ _); simpl in Hrun |];
      by injection Hrun as <- <-.
Qed.

Lemma bounty_issued_is_not_retried_witness :
  let w1 := fst (bounty_issued notifier_down 1 no_kwargs empty_world) in
  snd (bounty_issued notifier_down 1 no_kwargs empty_world)
    = Raised (CollaboratorError "notification failed")
  /\ bounty_issued notifier_down 1 no_kwargs w1 = (w1, Returned tt).
Proof.
  intros w1. split; [reflexivity |].
  apply (bounty_issued_is_not_retried notifier_down 1 no_kwargs no_kwargs empty_world w1
           (snd (bounty_issued notifier_down 1 no_kwargs empty_world))
           [sample_bounty 1 DRAFT_STAGE] (sample_bounty 1 DRAFT_STAGE)).
  - reflexivity.
  - exists (sample_bounty 1 DRAFT_STAGE). split; [left | reflexivity].
  - apply surjective_pairing.
Defined.
